(** * Room-booking relay: a shallow embedding of [src/index.js]

    The server has two routes.  [GET /rooms] fetches a token from the
    identity service and then reads the room directory; [POST /book]
    fetches a token and then creates a calendar event.  Every outbound
    call goes through [axios]; every answer to the caller goes through
    [res.json].

    The embedding keeps these two kinds of effect explicit: a handler is a
    function from the network it talks to, and from the requests that
    were issued before it started, to the requests it issues, the bodies
    it hands to [res.json], and the way its promise settles. *)

From Stdlib Require Import String List Bool Arith Lia DecimalString.
Import ListNotations.
Open Scope string_scope.
Set Warnings "-register-all".

(** ** JavaScript values *)

(** The values that travel through the handlers: what [JSON.parse]
    produces, plus [undefined], which a missing property evaluates to.
    A number is carried by the text JavaScript prints for it, since the
    program never computes with one.  An object is the list of its own
    properties in insertion order; a lookup takes the first entry. *)
Inductive value : Type :=
| Undefined
| Null
| Bool (b : bool)
| Num (repr : string)
| Str (s : string)
| Arr (items : list value)
| Obj (fields : list (string * value)).

(** What a rejected promise carries.  [AxiosError] is what [axios] rejects
    with: it has the upstream response when one arrived (a status outside
    2xx) and none when the call never got an answer.  [TypeError] is what
    the language raises when a property is read from [undefined] or
    [null], or when a value cannot be turned into a string. *)
Record http_response : Type := mkResponse { status : nat; data : value }.

Inductive error : Type :=
| AxiosError (response : option http_response)
| TypeError.

(** How a promise settles. *)
Inductive completion (A : Type) : Type :=
| Fulfilled (a : A)
| Rejected (e : error).
Arguments Fulfilled {A} a.
Arguments Rejected {A} e.

Fixpoint lookup (k : string) (fields : list (string * value)) : option value :=
  match fields with
  | [] => None
  | (k', v) :: rest => if String.eqb k k' then Some v else lookup k rest
  end.

Definition nullish (v : value) : bool :=
  match v with
  | Undefined | Null => true
  | _ => false
  end.

(** [v.k] and the destructuring [{ k } = v], for the property names this
    program reads ([access_token], [value], [userEmail], [roomEmail],
    [start], [end]): none of them is defined on a built-in prototype, so
    on anything but an object with that own property the result is
    [undefined], and on [undefined] and [null] the read throws. *)
Definition member (v : value) (k : string) : completion value :=
  match v with
  | Undefined | Null => Rejected TypeError
  | Obj fields =>
      match lookup k fields with
      | Some x => Fulfilled x
      | None => Fulfilled Undefined
      end
  | _ => Fulfilled Undefined
  end.

(** [`${v}`]: the string a template literal substitutes for [v].  An array
    joins its elements with commas, printing [null] and [undefined] as
    nothing.  A plain object prints as [[object Object]], unless it has an
    own [toString] property: a parsed value is never callable, the
    fallback [valueOf] returns the object itself, and the conversion
    throws ([None]). *)
Fixpoint ToString (v : value) : option string :=
  match v with
  | Undefined => Some "undefined"
  | Null => Some "null"
  | Bool true => Some "true"
  | Bool false => Some "false"
  | Num repr => Some repr
  | Str s => Some s
  | Arr items =>
      (fix join (l : list value) : option string :=
         match l with
         | [] => Some ""
         | x :: rest =>
             let piece := if nullish x then Some "" else ToString x in
             let tail := join rest in
             match piece, rest, tail with
             | Some a, [], _ => Some a
             | Some a, _ :: _, Some b => Some (a ++ "," ++ b)
             | _, _, _ => None
             end
         end) items
  | Obj fields =>
      match lookup "toString" fields with
      | Some _ => None
      | None => Some "[object Object]"
      end
  end.

(** ** Outbound requests *)

Inductive method : Type := GET | POST.

(** The second argument of [axios.post]: a [URLSearchParams] (sent
    form-encoded) or a plain object (sent as JSON); [axios.get] has none. *)
Inductive payload : Type :=
| NoBody
| Form (params : list (string * string))
| Json (v : value).

Record request : Type := mkRequest {
  meth : method;
  url : string;
  body : payload;
  headers : list (string * string)
}.

(** The services behind [axios]: given the requests issued so far, oldest
    first, and the next request, how the promise of that call settles.
    The history argument lets an upstream answer the same request
    differently each time, as a calendar that creates a new event per
    write does. *)
Definition upstream : Type := list request -> request -> completion http_response.

(** ** The monad of asynchronous handlers *)

Module Async.

(** What a handler can read but not change. *)
Record env : Type := mkEnv { net : upstream; past : list request }.

(** What a handler leaves behind: the calls it made, oldest first, and
    the bodies it passed to [res.json]. *)
Record effects : Type := mkEffects { issued : list request; sent : list value }.

Definition t (A : Type) : Type := env -> effects -> completion A * effects.

Definition ret {A} (a : A) : t A := fun _ s => (Fulfilled a, s).

Definition throw {A} (e : error) : t A := fun _ s => (Rejected e, s).

(** [await]: a rejection skips the rest of the function. *)
Definition bind {A B} (m : t A) (k : A -> t B) : t B :=
  fun e s =>
    match m e s with
    | (Fulfilled a, s') => k a e s'
    | (Rejected err, s') => (Rejected err, s')
    end.

Definition lift {A} (c : completion A) : t A := fun _ s => (c, s).

Definition request_ (r : request) : t http_response :=
  fun e s =>
    (net e (past e ++ issued s)%list r,
     {| issued := (issued s ++ [r])%list; sent := sent s |}).

End Async.

Notation "x <- m ;; k" := (Async.bind m (fun x => k))
  (at level 61, m at next level, right associativity).

Definition axios_post (u : string) (d : payload) (hs : list (string * string))
  : Async.t http_response :=
  Async.request_ {| meth := POST; url := u; body := d; headers := hs |}.

Definition axios_get (u : string) (hs : list (string * string))
  : Async.t http_response :=
  Async.request_ {| meth := GET; url := u; body := NoBody; headers := hs |}.

Definition res_json (v : value) : Async.t unit :=
  fun _ s =>
    (Fulfilled tt,
     {| Async.issued := Async.issued s; Async.sent := (Async.sent s ++ [v])%list |}).

(** [v.k], raising inside the handler when the read throws. *)
Definition prop (v : value) (k : string) : Async.t value := Async.lift (member v k).

(** The template literal [`pre${v}post`]. *)
Definition template (pre : string) (v : value) (post : string) : Async.t string :=
  match ToString v with
  | Some s => Async.ret (pre ++ s ++ post)
  | None => Async.throw TypeError
  end.

(** ** The program *)

Definition TENANT_ID : string := "YOUR_TENANT_ID".
Definition CLIENT_ID : string := "YOUR_CLIENT_ID".
Definition CLIENT_SECRET : string := "YOUR_CLIENT_SECRET".

Definition getToken : Async.t value :=
  res <- axios_post
           ("https://login.microsoftonline.com/" ++ TENANT_ID ++ "/oauth2/v2.0/token")
           (Form [ ("client_id", CLIENT_ID);
                   ("client_secret", CLIENT_SECRET);
                   ("scope", "https://graph.microsoft.com/.default");
                   ("grant_type", "client_credentials") ])
           [] ;;
  prop (data res) "access_token".

(** The handler of [app.get("/rooms", ...)]. *)
Definition listRooms : Async.t unit :=
  token <- getToken ;;
  authorization <- template "Bearer " token "" ;;
  rooms <- axios_get
             "https://graph.microsoft.com/v1.0/places/microsoft.graph.room"
             [ ("Authorization", authorization) ] ;;
  value_ <- prop (data rooms) "value" ;;
  res_json value_.

(** The handler of [app.post("/book", ...)]; [req_body] is [req.body]. *)
Definition bookRoom (req_body : value) : Async.t unit :=
  userEmail <- prop req_body "userEmail" ;;
  roomEmail <- prop req_body "roomEmail" ;;
  start <- prop req_body "start" ;;
  end_ <- prop req_body "end" ;;
  token <- getToken ;;
  target <- template "https://graph.microsoft.com/v1.0/users/" userEmail "/events" ;;
  authorization <- template "Bearer " token "" ;;
  meeting <- axios_post
               target
               (Json (Obj [ ("subject", Str "Room Reservation");
                            ("start", Obj [ ("dateTime", start); ("timeZone", Str "UTC") ]);
                            ("end", Obj [ ("dateTime", end_); ("timeZone", Str "UTC") ]);
                            ("attendees",
                             Arr [ Obj [ ("emailAddress", Obj [ ("address", roomEmail) ]);
                                         ("type", Str "resource") ] ]);
                            ("isOnlineMeeting", Bool true);
                            ("onlineMeetingProvider", Str "teamsForBusiness") ]))
               [ ("Authorization", authorization) ] ;;
  res_json (data meeting).

(** ** Running handlers *)

(** What one invocation did: how the handler's promise settled, the calls
    it made, and what it passed to [res.json]. *)
Record outcome : Type := mkOutcome {
  result : completion unit;
  calls : list request;
  replies : list value
}.

(** One invocation against the upstream [u], after the requests [h] were
    issued by earlier invocations. *)
Definition invoke (handler : Async.t unit) (u : upstream) (h : list request) : outcome :=
  let '(r, s) := handler {| Async.net := u; Async.past := h |}
                         {| Async.issued := []; Async.sent := [] |} in
  {| result := r; calls := Async.issued s; replies := Async.sent s |}.

(** The two operations a caller can ask for. *)
Inductive operation : Type :=
| ListRooms
| BookRoom (req_body : value).

Definition handler_of (o : operation) : Async.t unit :=
  match o with
  | ListRooms => listRooms
  | BookRoom req_body => bookRoom req_body
  end.

(** A sequence of invocations, one after the other, each seeing as history
    what the earlier ones issued. *)
Fixpoint serve (ops : list operation) (u : upstream) (h : list request) : list outcome :=
  match ops with
  | [] => []
  | o :: rest =>
      let out := invoke (handler_of o) u h in
      out :: serve rest u (h ++ calls out)%list
  end.

(** ** The requests the interface describes *)

(** The token request: a [POST] of the client credentials, form-encoded,
    to the tenant's token endpoint. *)
Definition token_request : request :=
  {| meth := POST;
     url := "https://login.microsoftonline.com/" ++ TENANT_ID ++ "/oauth2/v2.0/token";
     body := Form [ ("client_id", CLIENT_ID);
                    ("client_secret", CLIENT_SECRET);
                    ("scope", "https://graph.microsoft.com/.default");
                    ("grant_type", "client_credentials") ];
     headers := [] |}.

(** The directory read, carrying the credential [bearer]. *)
Definition rooms_request (bearer : string) : request :=
  {| meth := GET;
     url := "https://graph.microsoft.com/v1.0/places/microsoft.graph.room";
     body := NoBody;
     headers := [ ("Authorization", "Bearer " ++ bearer) ] |}.

(** The calendar write for the organizer whose address prints as
    [segment], carrying the credential [bearer]. *)
Definition event_request (segment : string) (roomEmail start end_ : value)
                         (bearer : string) : request :=
  {| meth := POST;
     url := "https://graph.microsoft.com/v1.0/users/" ++ segment ++ "/events";
     body := Json (Obj [ ("subject", Str "Room Reservation");
                         ("start", Obj [ ("dateTime", start); ("timeZone", Str "UTC") ]);
                         ("end", Obj [ ("dateTime", end_); ("timeZone", Str "UTC") ]);
                         ("attendees",
                          Arr [ Obj [ ("emailAddress", Obj [ ("address", roomEmail) ]);
                                      ("type", Str "resource") ] ]);
                         ("isOnlineMeeting", Bool true);
                         ("onlineMeetingProvider", Str "teamsForBusiness") ]);
     headers := [ ("Authorization", "Bearer " ++ bearer) ] |}.

(** The value a destructured name is bound to, when the body can be
    destructured at all. *)
Definition field (req_body : value) (k : string) : value :=
  match member req_body k with
  | Fulfilled v => v
  | Rejected _ => Undefined
  end.

(** ** Classifying requests *)

Definition is_token_call (r : request) : bool :=
  match meth r with
  | POST => String.eqb (url r) (url token_request)
  | GET => false
  end.

(** [s] begins with [p]. *)
Fixpoint starts_with (p s : string) {struct p} : bool :=
  match p with
  | EmptyString => true
  | String a p' =>
      match s with
      | EmptyString => false
      | String b s' => Ascii.eqb a b && starts_with p' s'
      end
  end.

(** A call to the directory or to the calendar: both live on the graph
    host. *)
Definition is_graph_call (r : request) : bool :=
  starts_with "https://graph.microsoft.com/" (url r).

Definition is_calendar_write (r : request) : bool :=
  match meth r with
  | POST => starts_with "https://graph.microsoft.com/v1.0/users/" (url r)
  | GET => false
  end.

Definition token_calls (l : list request) : nat := length (filter is_token_call l).
Definition graph_calls (l : list request) : nat := length (filter is_graph_call l).
Definition calendar_writes (l : list request) : nat := length (filter is_calendar_write l).

(** An operation the handler can start on: [POST /book] needs a body to
    destructure. *)
Definition has_body (o : operation) : bool :=
  match o with
  | ListRooms => true
  | BookRoom req_body => negb (nullish req_body)
  end.

(** The upstream answers the requests [rs], issued in this order, the same
    way in two runs: [u1] after the history [h1], [u2] after [h2]. *)
Fixpoint same_answers (u1 : upstream) (h1 : list request)
                      (u2 : upstream) (h2 : list request)
                      (rs : list request) : Prop :=
  match rs with
  | [] => True
  | r :: rest =>
      u1 h1 r = u2 h2 r /\ same_answers u1 (h1 ++ [r])%list u2 (h2 ++ [r])%list rest
  end.

(** ** What the caller receives *)

(** The handlers are mounted on the framework's router, and the caller
    sees the response of the route, not the handler's promise.  The part
    of the route that is not in the handlers is the framework's: with no
    error middleware mounted, a rejected handler goes to its default
    error handler.  That part is not code of [src/index.js]; it is put
    down here as the framework behaves in a run of the program, so that a
    statement about the caller can be written at all. *)

(** The body of a response: a value relayed through [res.json], or the
    page the framework writes for an error, which it builds from the
    error's message and never from [error.response.data]. *)
Inductive reply_body : Type :=
| Relayed (v : value)
| ErrorPage.

Record http_reply : Type := mkReply { code : nat; content : reply_body }.

(** [error.status]: the upstream status on an [AxiosError] that has a
    response, absent otherwise. *)
Definition error_status (e : error) : option nat :=
  match e with
  | AxiosError (Some res) => Some (status res)
  | AxiosError None => None
  | TypeError => None
  end.

(** The default error handler: the status of the error when it is a 4xx
    or 5xx code, 500 otherwise, and the error page. *)
Definition final_handler (e : error) : http_reply :=
  {| code := match error_status e with
             | Some s => if ((400 <=? s)%nat && (s <? 600)%nat)%bool then s else 500
             | None => 500
             end;
     content := ErrorPage |}.

(** The response of a route: [res.json] answers 200 with the body it was
    given; a rejection is answered by the default error handler.  [None]
    stands for a request left without a response. *)
Definition answer (o : outcome) : option http_reply :=
  match result o with
  | Rejected e => Some (final_handler e)
  | Fulfilled _ =>
      match replies o with
      | v :: _ => Some {| code := 200; content := Relayed v |}
      | [] => None
      end
  end.

(** The credential an identity answer yields: the printed form of its
    [access_token], when the answer has one that prints. *)
Definition credential (answer : completion http_response) : completion string :=
  match answer with
  | Rejected err => Rejected err
  | Fulfilled res =>
      match member (data res) "access_token" with
      | Rejected err => Rejected err
      | Fulfilled token =>
          match ToString token with
          | Some bearer => Fulfilled bearer
          | None => Rejected TypeError
          end
      end
  end.

(** The results of a sequence of invocations are pairwise different. *)
Definition distinct_results (outs : list outcome) : Prop := NoDup (map replies outs).

(** An operation whose second call can be addressed: the organizer of a
    booking has a printed form. *)
Definition addressable (o : operation) : bool :=
  match o with
  | ListRooms => true
  | BookRoom req_body =>
      negb (nullish req_body)
      && match ToString (field req_body "userEmail") with
         | Some _ => true
         | None => false
         end
  end.

(** The identity answer yields a credential. *)
Definition has_credential (answer : completion http_response) : bool :=
  match credential answer with
  | Fulfilled _ => true
  | Rejected _ => false
  end.

(** The upstream [u] where every answer that arrived with a 2xx status
    arrives with the status [code] instead.  [axios] settles a call by
    the status of the answer (its default [validateStatus]): it fulfils
    on 2xx and rejects, with the answer inside the error, on any other
    status. *)
Definition restatus (code : nat) (u : upstream) : upstream :=
  fun h r =>
    match u h r with
    | Fulfilled res =>
        let res' := {| status := code; data := data res |} in
        if ((200 <=? code)%nat && (code <? 300)%nat)%bool
        then Fulfilled res'
        else Rejected (AxiosError (Some res'))
    | Rejected err => Rejected err
    end.

(** ** Stub upstreams *)

(** The identity service hands out [tok123]; the directory lists one
    room; the calendar creates one event per write and numbers it by the
    writes it received before. *)
Definition stub_services : upstream :=
  fun h r =>
    if is_token_call r then
      Fulfilled {| status := 200; data := Obj [ ("access_token", Str "tok123") ] |}
    else if is_calendar_write r then
      Fulfilled {| status := 201;
                   data := Obj [ ("id", Str (NilEmpty.string_of_uint
                                               (Nat.to_uint (calendar_writes h)))) ] |}
    else
      Fulfilled {| status := 200;
                   data := Obj [ ("value",
                                  Arr [ Obj [ ("id", Str "r1");
                                              ("emailAddress", Str "room1@x.com") ] ]) ] |}.

(** A calendar stub that gives every write the same canned answer. *)
Definition stub_canned : upstream :=
  fun _ r =>
    if is_token_call r then
      Fulfilled {| status := 200; data := Obj [ ("access_token", Str "tok123") ] |}
    else
      Fulfilled {| status := 201; data := Obj [ ("id", Str "evt") ] |}.

(** An identity service that rejects the client. *)
Definition stub_unauthorized : upstream :=
  fun _ _ =>
    Rejected (AxiosError (Some {| status := 401;
                                  data := Obj [ ("error", Str "invalid_client") ] |})).

(** A graph service that refuses the call after a token was granted. *)
Definition stub_forbidden : upstream :=
  fun _ r =>
    if is_token_call r then
      Fulfilled {| status := 200; data := Obj [ ("access_token", Str "tok123") ] |}
    else
      Rejected (AxiosError (Some {| status := 403;
                                    data := Obj [ ("error", Str "forbidden") ] |})).

(** An upstream that settles every token call as [identity] and every
    other call as [graph]. *)
Definition stub_answers (identity graph : completion http_response) : upstream :=
  fun _ r => if is_token_call r then identity else graph.

(** The booking of the interface's scenario. *)
Definition alice_books_room1 : value :=
  Obj [ ("userEmail", Str "alice@x.com");
        ("roomEmail", Str "room1@x.com");
        ("start", Str "2024-01-01T10:00:00Z");
        ("end", Str "2024-01-01T11:00:00Z") ].

(** ** Run equations *)

Lemma append_empty (s : string) : s ++ "" = s.
Proof. induction s as [| c s IH]; simpl; [reflexivity | now rewrite IH]. Qed.

Lemma starts_with_append (p s : string) : starts_with p (p ++ s) = true.
Proof.
  induction p as [| a p IH]; simpl; [reflexivity |].
  rewrite Ascii.eqb_refl. exact IH.
Qed.

(** [await] obeys the monad laws, pointwise. *)
Module AsyncLaws.

Lemma bind_ret {A B} (a : A) (k : A -> Async.t B) (e : Async.env) (s : Async.effects) :
  Async.bind (Async.ret a) k e s = k a e s.
Proof. reflexivity. Qed.

Lemma ret_bind {A} (m : Async.t A) (e : Async.env) (s : Async.effects) :
  Async.bind m Async.ret e s = m e s.
Proof. unfold Async.bind, Async.ret. destruct (m e s) as [[a | err] s']; reflexivity. Qed.

Lemma bind_bind {A B C} (m : Async.t A) (k : A -> Async.t B) (k' : B -> Async.t C)
                (e : Async.env) (s : Async.effects) :
  Async.bind (Async.bind m k) k' e s = Async.bind m (fun a => Async.bind (k a) k') e s.
Proof. unfold Async.bind. destruct (m e s) as [[a | err] s']; reflexivity. Qed.

(** A rejection skips what follows and keeps the effects made so far. *)
Lemma throw_bind {A B} (err : error) (k : A -> Async.t B) (e : Async.env) (s : Async.effects) :
  Async.bind (Async.throw err) k e s = (Rejected err, s).
Proof. reflexivity. Qed.

End AsyncLaws.

Lemma member_not_nullish (v : value) (k : string) :
  nullish v = false -> member v k = Fulfilled (field v k).
Proof.
  unfold field. destruct v; simpl; try discriminate; intros _; try reflexivity.
  destruct (lookup k fields); reflexivity.
Qed.

Lemma member_nullish (v : value) (k : string) :
  nullish v = true -> member v k = Rejected TypeError.
Proof. destruct v; simpl; try discriminate; reflexivity. Qed.

(** How [getToken] runs from any point of a handler. *)
Lemma getToken_run (e : Async.env) (s : Async.effects) :
  getToken e s =
    (match Async.net e (Async.past e ++ Async.issued s)%list token_request with
     | Fulfilled res => member (data res) "access_token"
     | Rejected err => Rejected err
     end,
     {| Async.issued := (Async.issued s ++ [token_request])%list;
        Async.sent := Async.sent s |}).
Proof.
  unfold getToken, Async.bind, axios_post, Async.request_, prop, Async.lift.
  fold token_request.
  destruct (Async.net e _ token_request); reflexivity.
Qed.

Lemma invoke_listRooms (u : upstream) (h : list request) :
  invoke listRooms u h =
    match credential (u h token_request) with
    | Rejected err => {| result := Rejected err; calls := [token_request]; replies := [] |}
    | Fulfilled bearer =>
        let issued := [token_request; rooms_request bearer] in
        match u (h ++ [token_request])%list (rooms_request bearer) with
        | Rejected err => {| result := Rejected err; calls := issued; replies := [] |}
        | Fulfilled rooms =>
            match member (data rooms) "value" with
            | Rejected err => {| result := Rejected err; calls := issued; replies := [] |}
            | Fulfilled v => {| result := Fulfilled tt; calls := issued; replies := [v] |}
            end
        end
    end.
Proof.
  unfold invoke, listRooms, Async.bind. rewrite getToken_run.
  cbn -[String.append token_request]. rewrite app_nil_r. unfold credential.
  destruct (u h token_request) as [res | err]; [| reflexivity].
  destruct (member (data res) "access_token") as [token | err]; [| reflexivity].
  unfold template. destruct (ToString token) as [bearer |]; [| reflexivity].
  unfold Async.ret, axios_get, Async.request_.
  cbn -[String.append token_request]. rewrite append_empty.
  fold (rooms_request bearer).
  destruct (u _ (rooms_request bearer)) as [rooms | err]; [| reflexivity].
  unfold prop, Async.lift.
  destruct (member (data rooms) "value"); reflexivity.
Qed.

Lemma invoke_bookRoom (req_body : value) (u : upstream) (h : list request) :
  invoke (bookRoom req_body) u h =
    if nullish req_body
    then {| result := Rejected TypeError; calls := []; replies := [] |}
    else
      match credential (u h token_request) with
      | Rejected err => {| result := Rejected err; calls := [token_request]; replies := [] |}
      | Fulfilled bearer =>
          match ToString (field req_body "userEmail") with
          | None => {| result := Rejected TypeError; calls := [token_request]; replies := [] |}
          | Some segment =>
              let write := event_request segment (field req_body "roomEmail")
                                         (field req_body "start") (field req_body "end")
                                         bearer in
              match u (h ++ [token_request])%list write with
              | Rejected err =>
                  {| result := Rejected err; calls := [token_request; write]; replies := [] |}
              | Fulfilled meeting =>
                  {| result := Fulfilled tt; calls := [token_request; write];
                     replies := [data meeting] |}
              end
          end
      end.
Proof.
  destruct (nullish req_body) eqn:Hbody.
  - unfold invoke, bookRoom, Async.bind, prop, Async.lift.
    rewrite (member_nullish _ _ Hbody). reflexivity.
  - unfold invoke, bookRoom, Async.bind, prop, Async.lift.
    rewrite !(member_not_nullish _ _ Hbody). rewrite getToken_run.
    cbn -[String.append token_request]. rewrite app_nil_r. unfold credential.
    destruct (u h token_request) as [res | err]; [| reflexivity].
    destruct (member (data res) "access_token") as [token | err]; [| reflexivity].
    unfold template.
    destruct (ToString (field req_body "userEmail")) as [segment |].
    + destruct (ToString token) as [bearer |]; [| reflexivity].
      unfold Async.ret, axios_post, Async.request_.
      cbn -[String.append token_request]. rewrite append_empty.
      fold (event_request segment (field req_body "roomEmail")
                          (field req_body "start") (field req_body "end") bearer).
      destruct (u _ (event_request _ _ _ _ _)); reflexivity.
    + destruct (ToString token); reflexivity.
Qed.

(** ** Sample runs *)

Example listRooms_scenario :
  invoke listRooms stub_services [] =
    {| result := Fulfilled tt;
       calls := [ token_request; rooms_request "tok123" ];
       replies := [ Arr [ Obj [ ("id", Str "r1"); ("emailAddress", Str "room1@x.com") ] ] ] |}.
Proof. reflexivity. Qed.

Example bookRoom_scenario :
  invoke (bookRoom alice_books_room1) stub_services [] =
    {| result := Fulfilled tt;
       calls := [ token_request;
                  {| meth := POST;
                     url := "https://graph.microsoft.com/v1.0/users/alice@x.com/events";
                     body := Json (Obj [ ("subject", Str "Room Reservation");
                                         ("start", Obj [ ("dateTime", Str "2024-01-01T10:00:00Z");
                                                         ("timeZone", Str "UTC") ]);
                                         ("end", Obj [ ("dateTime", Str "2024-01-01T11:00:00Z");
                                                       ("timeZone", Str "UTC") ]);
                                         ("attendees",
                                          Arr [ Obj [ ("emailAddress",
                                                       Obj [ ("address", Str "room1@x.com") ]);
                                                      ("type", Str "resource") ] ]);
                                         ("isOnlineMeeting", Bool true);
                                         ("onlineMeetingProvider", Str "teamsForBusiness") ]);
                     headers := [ ("Authorization", "Bearer tok123") ] |} ];
       replies := [ Obj [ ("id", Str "0") ] ] |}.
Proof. reflexivity. Qed.

Example bookRoom_without_body :
  invoke (bookRoom Undefined) stub_services [] =
    {| result := Rejected TypeError; calls := []; replies := [] |}.
Proof. reflexivity. Qed.

Example ToString_samples :
  ToString (Arr [ Num "1"; Null; Arr [ Str "a"; Bool true ]; Undefined ]) = Some "1,,a,true,"
  /\ ToString (Obj [ ("a", Num "1") ]) = Some "[object Object]"
  /\ ToString (Obj [ ("toString", Num "1") ]) = None.
Proof. repeat split; reflexivity. Qed.

(** ** Properties of the two operations *)

Ltac settle_credential Htoken Haccess Hprint :=
  unfold credential; rewrite Htoken, Haccess, Hprint.

(** C1. For every booking input (userEmail, roomEmail, start, end), when
    the identity service grants a token and the calendar accepts the
    write, [bookRoom] issues, after the token call, exactly one write
    request: its URL has the organizer email as path segment, its body
    has the room email as the single resource attendee and start/end as
    dateTime objects with timeZone UTC, it carries the bearer credential,
    and the body of the calendar's answer is handed to the caller as it
    is. *)
Theorem bookRoom_maps_inputs :
  forall (u : upstream) (h : list request) (fields : list (string * value))
         (userEmail roomEmail start end_ : string)
         (granted : http_response) (token : value) (bearer : string)
         (meeting : http_response),
    lookup "userEmail" fields = Some (Str userEmail) ->
    lookup "roomEmail" fields = Some (Str roomEmail) ->
    lookup "start" fields = Some (Str start) ->
    lookup "end" fields = Some (Str end_) ->
    u h token_request = Fulfilled granted ->
    member (data granted) "access_token" = Fulfilled token ->
    ToString token = Some bearer ->
    u (h ++ [token_request])%list
      (event_request userEmail (Str roomEmail) (Str start) (Str end_) bearer)
      = Fulfilled meeting ->
    invoke (bookRoom (Obj fields)) u h =
      {| result := Fulfilled tt;
         calls := [ token_request;
                    {| meth := POST;
                       url := "https://graph.microsoft.com/v1.0/users/" ++ userEmail ++ "/events";
                       body :=
                         Json (Obj [ ("subject", Str "Room Reservation");
                                     ("start", Obj [ ("dateTime", Str start);
                                                     ("timeZone", Str "UTC") ]);
                                     ("end", Obj [ ("dateTime", Str end_);
                                                   ("timeZone", Str "UTC") ]);
                                     ("attendees",
                                      Arr [ Obj [ ("emailAddress",
                                                   Obj [ ("address", Str roomEmail) ]);
                                                  ("type", Str "resource") ] ]);
                                     ("isOnlineMeeting", Bool true);
                                     ("onlineMeetingProvider", Str "teamsForBusiness") ]);
                       headers := [ ("Authorization", "Bearer " ++ bearer) ] |} ];
         replies := [ data meeting ] |}.
Proof.
  intros u h fields userEmail roomEmail start end_ granted token bearer meeting
         Hu Hr Hs He Htoken Haccess Hprint Hwrite.
  rewrite invoke_bookRoom. cbn [nullish].
  settle_credential Htoken Haccess Hprint.
  unfold field, member. rewrite Hu, Hr, Hs, He. cbn [ToString].
  cbv zeta. rewrite Hwrite. reflexivity.
Qed.

Lemma bookRoom_maps_inputs_witness :
  invoke (bookRoom alice_books_room1) stub_services [] =
    {| result := Fulfilled tt;
       calls := [ token_request;
                  {| meth := POST;
                     url := "https://graph.microsoft.com/v1.0/users/" ++ "alice@x.com" ++ "/events";
                     body :=
                       Json (Obj [ ("subject", Str "Room Reservation");
                                   ("start", Obj [ ("dateTime", Str "2024-01-01T10:00:00Z");
                                                   ("timeZone", Str "UTC") ]);
                                   ("end", Obj [ ("dateTime", Str "2024-01-01T11:00:00Z");
                                                 ("timeZone", Str "UTC") ]);
                                   ("attendees",
                                    Arr [ Obj [ ("emailAddress",
                                                 Obj [ ("address", Str "room1@x.com") ]);
                                                ("type", Str "resource") ] ]);
                                   ("isOnlineMeeting", Bool true);
                                   ("onlineMeetingProvider", Str "teamsForBusiness") ]);
                     headers := [ ("Authorization", "Bearer " ++ "tok123") ] |} ];
       replies := [ Obj [ ("id", Str "0") ] ] |}.
Proof.
  exact (bookRoom_maps_inputs stub_services []
           [ ("userEmail", Str "alice@x.com");
             ("roomEmail", Str "room1@x.com");
             ("start", Str "2024-01-01T10:00:00Z");
             ("end", Str "2024-01-01T11:00:00Z") ]
           "alice@x.com" "room1@x.com" "2024-01-01T10:00:00Z" "2024-01-01T11:00:00Z"
           {| status := 200; data := Obj [ ("access_token", Str "tok123") ] |}
           (Str "tok123") "tok123"
           {| status := 201; data := Obj [ ("id", Str "0") ] |}
           eq_refl eq_refl eq_refl eq_refl eq_refl eq_refl eq_refl eq_refl).
Defined.

(** C2. For every successful credential response and every successful
    directory response, [listRooms] issues, after the token call, exactly
    one read request to the directory endpoint, carrying the bearer
    credential, and hands the room collection of the answer (its [value])
    to the caller unchanged. *)
Theorem listRooms_relays_rooms :
  forall (u : upstream) (h : list request)
         (granted : http_response) (token : value) (bearer : string)
         (listing : http_response) (rooms : value),
    u h token_request = Fulfilled granted ->
    member (data granted) "access_token" = Fulfilled token ->
    ToString token = Some bearer ->
    u (h ++ [token_request])%list (rooms_request bearer) = Fulfilled listing ->
    member (data listing) "value" = Fulfilled rooms ->
    invoke listRooms u h =
      {| result := Fulfilled tt;
         calls := [ token_request;
                    {| meth := GET;
                       url := "https://graph.microsoft.com/v1.0/places/microsoft.graph.room";
                       body := NoBody;
                       headers := [ ("Authorization", "Bearer " ++ bearer) ] |} ];
         replies := [ rooms ] |}.
Proof.
  intros u h granted token bearer listing rooms Htoken Haccess Hprint Hread Hvalue.
  rewrite invoke_listRooms. settle_credential Htoken Haccess Hprint.
  cbv zeta. rewrite Hread, Hvalue. reflexivity.
Qed.

Lemma listRooms_relays_rooms_witness :
  invoke listRooms stub_services [] =
    {| result := Fulfilled tt;
       calls := [ token_request;
                  {| meth := GET;
                     url := "https://graph.microsoft.com/v1.0/places/microsoft.graph.room";
                     body := NoBody;
                     headers := [ ("Authorization", "Bearer " ++ "tok123") ] |} ];
       replies := [ Arr [ Obj [ ("id", Str "r1"); ("emailAddress", Str "room1@x.com") ] ] ] |}.
Proof.
  exact (listRooms_relays_rooms stub_services []
           {| status := 200; data := Obj [ ("access_token", Str "tok123") ] |}
           (Str "tok123") "tok123"
           {| status := 200;
              data := Obj [ ("value", Arr [ Obj [ ("id", Str "r1");
                                                  ("emailAddress", Str "room1@x.com") ] ]) ] |}
           _ eq_refl eq_refl eq_refl eq_refl eq_refl).
Defined.

(** *** Failing upstream calls *)



Lemma credential_rejected (answer : completion http_response) (e : error) :
  answer = Rejected e -> credential answer = Rejected e.
Proof. intros ->. reflexivity. Qed.






(** *** Token acquisition *)

(** Without a credential nothing goes to the graph host.  This covers a
    rejected token call and also a token answer that has no usable
    [access_token] (a [null] body, a token that does not print). *)
Lemma no_credential_no_graph_call (o : operation) (u : upstream) (h : list request)
                                  (e : error) :
  credential (u h token_request) = Rejected e ->
  (exists e', result (invoke (handler_of o) u h) = Rejected e')
  /\ (has_body o = true ->
      result (invoke (handler_of o) u h) = Rejected e
      /\ calls (invoke (handler_of o) u h) = [ token_request ])
  /\ graph_calls (calls (invoke (handler_of o) u h)) = 0
  /\ calendar_writes (calls (invoke (handler_of o) u h)) = 0
  /\ replies (invoke (handler_of o) u h) = [].
Proof.
  destruct o as [| req_body]; intros Hcred; cbn [handler_of].
  - rewrite invoke_listRooms, Hcred. cbn [result calls replies].
    repeat split; try reflexivity. exists e. reflexivity.
  - rewrite invoke_bookRoom, Hcred.
    cbn [has_body]. destruct (nullish req_body); cbn [result calls replies negb].
    + repeat split; try reflexivity; try discriminate. exists TypeError. reflexivity.
    + repeat split; try reflexivity. exists e. reflexivity.
Qed.

(** C4. Whenever token acquisition fails because the identity service
    returns an error, both operations fail and issue no request to the
    directory or the calendar: the calendar write is never performed, and
    nothing is handed to the caller. *)
Theorem token_failure_stops_operation :
  forall (o : operation) (u : upstream) (h : list request) (e : error),
    u h token_request = Rejected e ->
    let out := invoke (handler_of o) u h in
    (exists e', result out = Rejected e')
    /\ (has_body o = true -> result out = Rejected e /\ calls out = [ token_request ])
    /\ graph_calls (calls out) = 0
    /\ calendar_writes (calls out) = 0
    /\ replies out = [].
Proof.
  intros o u h e Hfail. cbv zeta.
  exact (no_credential_no_graph_call o u h e (credential_rejected _ _ Hfail)).
Qed.

Lemma token_failure_stops_operation_witness :
  let out := invoke (handler_of (BookRoom alice_books_room1)) stub_unauthorized [] in
  (exists e', result out = Rejected e')
  /\ (has_body (BookRoom alice_books_room1) = true ->
      result out = Rejected (AxiosError (Some {| status := 401;
                                                data := Obj [ ("error", Str "invalid_client") ] |}))
      /\ calls out = [ token_request ])
  /\ graph_calls (calls out) = 0
  /\ calendar_writes (calls out) = 0
  /\ replies out = [].
Proof.
  exact (token_failure_stops_operation (BookRoom alice_books_room1) stub_unauthorized []
           (AxiosError (Some {| status := 401;
                                data := Obj [ ("error", Str "invalid_client") ] |}))
           eq_refl).
Defined.

(** Each invocation that has a body to work on asks for exactly one
    token, whatever the upstream answers. *)
Lemma one_token_call (o : operation) (u : upstream) (h : list request) :
  has_body o = true -> token_calls (calls (invoke (handler_of o) u h)) = 1.
Proof.
  destruct o as [| req_body]; cbn [handler_of has_body].
  - intros _. rewrite invoke_listRooms.
    destruct (credential (u h token_request)) as [bearer | e]; [| reflexivity].
    cbv zeta. destruct (u _ (rooms_request bearer)) as [listing | e]; [| reflexivity].
    destruct (member (data listing) "value"); reflexivity.
  - intros Hbody. rewrite invoke_bookRoom.
    apply negb_true_iff in Hbody. rewrite Hbody.
    destruct (credential (u h token_request)) as [bearer | e]; [| reflexivity].
    destruct (ToString (field req_body "userEmail")) as [segment |]; [| reflexivity].
    cbv zeta. destruct (u _ (event_request _ _ _ _ _)); reflexivity.
Qed.

Lemma token_calls_app (l1 l2 : list request) :
  token_calls (l1 ++ l2) = token_calls l1 + token_calls l2.
Proof. unfold token_calls. rewrite filter_app, length_app. reflexivity. Qed.

(** C5. Every invocation of [listRooms] and every invocation of
    [bookRoom] on a request body performs exactly one token acquisition:
    in any sequence of operations served one after the other, each
    invocation issues one token call of its own, so the sequence issues as
    many token calls as it has operations (two for two consecutive
    operations) and no credential is kept from one invocation to the
    next. *)
Theorem token_fetched_anew_each_time :
  forall (ops : list operation) (u : upstream) (h : list request),
    forallb has_body ops = true ->
    map (fun out => token_calls (calls out)) (serve ops u h) = repeat 1 (length ops)
    /\ token_calls (concat (map calls (serve ops u h))) = length ops.
Proof.
  induction ops as [| o ops IH]; intros u h Hops.
  - split; reflexivity.
  - cbn [forallb] in Hops. apply andb_true_iff in Hops. destruct Hops as [Ho Hops].
    cbn [serve map concat length repeat].
    destruct (IH u (h ++ calls (invoke (handler_of o) u h))%list Hops) as [IHeach IHall].
    split.
    + rewrite one_token_call by exact Ho. f_equal. exact IHeach.
    + rewrite token_calls_app, one_token_call by exact Ho. rewrite IHall. reflexivity.
Qed.

Lemma token_fetched_anew_each_time_witness :
  map (fun out => token_calls (calls out))
      (serve [ ListRooms; BookRoom alice_books_room1 ] stub_services [])
    = repeat 1 (length [ ListRooms; BookRoom alice_books_room1 ])
  /\ token_calls (concat (map calls (serve [ ListRooms; BookRoom alice_books_room1 ]
                                           stub_services [])))
     = length [ ListRooms; BookRoom alice_books_room1 ].
Proof.
  exact (token_fetched_anew_each_time [ ListRooms; BookRoom alice_books_room1 ]
           stub_services [] eq_refl).
Defined.

(** *** Repeated bookings *)

Lemma one_calendar_write (segment bearer : string) (roomEmail start end_ : value) :
  calendar_writes [ token_request; event_request segment roomEmail start end_ bearer ] = 1.
Proof. reflexivity. Qed.

(** C6, as the code has it.  [bookRoom] is not idempotent and nothing is
    deduplicated: two identical consecutive calls each fetch a token and
    each issue their own calendar write, and each hands to its caller the
    answer the calendar gave to its own write; the two results differ
    whenever those two answers differ. *)
Theorem repeated_booking_writes_twice :
  forall (req_body : value) (u : upstream) (h : list request)
         (segment bearer1 bearer2 : string) (meeting1 meeting2 : http_response),
    nullish req_body = false ->
    ToString (field req_body "userEmail") = Some segment ->
    let write bearer :=
      event_request segment (field req_body "roomEmail")
                    (field req_body "start") (field req_body "end") bearer in
    credential (u h token_request) = Fulfilled bearer1 ->
    u (h ++ [ token_request ])%list (write bearer1) = Fulfilled meeting1 ->
    credential (u (h ++ [ token_request; write bearer1 ])%list token_request)
      = Fulfilled bearer2 ->
    u (h ++ [ token_request; write bearer1; token_request ])%list (write bearer2)
      = Fulfilled meeting2 ->
    serve [ BookRoom req_body; BookRoom req_body ] u h =
      [ {| result := Fulfilled tt;
           calls := [ token_request; write bearer1 ];
           replies := [ data meeting1 ] |};
        {| result := Fulfilled tt;
           calls := [ token_request; write bearer2 ];
           replies := [ data meeting2 ] |} ]
    /\ calendar_writes [ token_request; write bearer1 ] = 1
    /\ calendar_writes [ token_request; write bearer2 ] = 1
    /\ (data meeting1 <> data meeting2 ->
        distinct_results (serve [ BookRoom req_body; BookRoom req_body ] u h)).
Proof.
  intros req_body u h segment bearer1 bearer2 meeting1 meeting2
         Hbody Hsegment write Hcred1 Hwrite1 Hcred2 Hwrite2.
  assert (Hrun :
    serve [ BookRoom req_body; BookRoom req_body ] u h =
      [ {| result := Fulfilled tt;
           calls := [ token_request; write bearer1 ];
           replies := [ data meeting1 ] |};
        {| result := Fulfilled tt;
           calls := [ token_request; write bearer2 ];
           replies := [ data meeting2 ] |} ]).
  { cbn [serve handler_of].
    rewrite (invoke_bookRoom req_body u h), Hbody, Hcred1, Hsegment.
    cbv zeta. fold (write bearer1). rewrite Hwrite1. cbn [calls].
    rewrite invoke_bookRoom, Hbody, Hcred2, Hsegment.
    cbv zeta. fold (write bearer2).
    rewrite <- app_assoc. cbn [app]. rewrite Hwrite2. reflexivity. }
  split; [exact Hrun |].
  split; [apply one_calendar_write |].
  split; [apply one_calendar_write |].
  intros Hdiff. unfold distinct_results. rewrite Hrun. cbn [map replies].
  constructor.
  - intros [Hsame | []]. apply Hdiff. congruence.
  - constructor; [intros [] | constructor].
Qed.

Lemma repeated_booking_writes_twice_witness :
  serve [ BookRoom alice_books_room1; BookRoom alice_books_room1 ] stub_services [] =
    [ {| result := Fulfilled tt;
         calls := [ token_request;
                    event_request "alice@x.com" (Str "room1@x.com")
                                  (Str "2024-01-01T10:00:00Z") (Str "2024-01-01T11:00:00Z")
                                  "tok123" ];
         replies := [ Obj [ ("id", Str "0") ] ] |};
      {| result := Fulfilled tt;
         calls := [ token_request;
                    event_request "alice@x.com" (Str "room1@x.com")
                                  (Str "2024-01-01T10:00:00Z") (Str "2024-01-01T11:00:00Z")
                                  "tok123" ];
         replies := [ Obj [ ("id", Str "1") ] ] |} ]
  /\ distinct_results
       (serve [ BookRoom alice_books_room1; BookRoom alice_books_room1 ] stub_services []).
Proof.
  pose proof (repeated_booking_writes_twice alice_books_room1 stub_services []
                "alice@x.com" "tok123" "tok123"
                {| status := 201; data := Obj [ ("id", Str "0") ] |}
                {| status := 201; data := Obj [ ("id", Str "1") ] |}
                eq_refl eq_refl eq_refl eq_refl eq_refl eq_refl) as (Hrun & _ & _ & Hdistinct).
  split; [exact Hrun | apply Hdistinct; discriminate].
Defined.

(** C6, as stated, fails: against a calendar stub that gives every write
    the same answer, two identical consecutive bookings each issue their
    own write and yet produce the same result twice. *)
Lemma repeated_booking_same_result :
  map (fun out => calendar_writes (calls out))
      (serve [ BookRoom alice_books_room1; BookRoom alice_books_room1 ] stub_canned [])
    = [ 1; 1 ]
  /\ ~ distinct_results
        (serve [ BookRoom alice_books_room1; BookRoom alice_books_room1 ] stub_canned []).
Proof.
  split; [reflexivity |].
  unfold distinct_results. cbn. intros Hnodup.
  inversion Hnodup as [| x l Hnotin _]. apply Hnotin. left. reflexivity.
Qed.

(** *** The token request and the use of the token *)

(** C7. Every invocation starts with the token request: a [POST] to
    [<tenant>/oauth2/v2.0/token] on the identity host whose form-encoded
    body has exactly the fields [client_id], [client_secret], [scope] and
    [grant_type = client_credentials]; and the [access_token] of the
    answer, printed, is the bearer credential of the [Authorization]
    header of the directory or calendar request that follows. *)
Theorem token_request_then_bearer :
  forall (o : operation) (u : upstream) (h : list request),
    has_body o = true ->
    (exists rest,
        calls (invoke (handler_of o) u h) =
          {| meth := POST;
             url := "https://login.microsoftonline.com/" ++ TENANT_ID ++ "/oauth2/v2.0/token";
             body := Form [ ("client_id", CLIENT_ID);
                            ("client_secret", CLIENT_SECRET);
                            ("scope", "https://graph.microsoft.com/.default");
                            ("grant_type", "client_credentials") ];
             headers := [] |} :: rest)
    /\ (forall (granted : http_response) (token : value) (bearer : string),
           u h token_request = Fulfilled granted ->
           member (data granted) "access_token" = Fulfilled token ->
           ToString token = Some bearer ->
           addressable o = true ->
           exists next,
             calls (invoke (handler_of o) u h) = [ token_request; next ]
             /\ is_graph_call next = true
             /\ headers next = [ ("Authorization", "Bearer " ++ bearer) ]).
Proof.
  intros [| req_body] u h Hbody; cbn [handler_of].
  - rewrite invoke_listRooms. split.
    + destruct (credential (u h token_request)) as [bearer | e]; [| eexists; reflexivity].
      cbv zeta. destruct (u _ (rooms_request bearer)) as [listing | e];
        [destruct (member (data listing) "value") |]; eexists; reflexivity.
    + intros granted token bearer Htoken Haccess Hprint _.
      settle_credential Htoken Haccess Hprint. cbv zeta.
      exists (rooms_request bearer).
      destruct (u _ (rooms_request bearer)) as [listing | e];
        [destruct (member (data listing) "value") |]; repeat split; reflexivity.
  - cbn [has_body] in Hbody. apply negb_true_iff in Hbody.
    rewrite invoke_bookRoom, Hbody. split.
    + destruct (credential (u h token_request)) as [bearer | e]; [| eexists; reflexivity].
      destruct (ToString (field req_body "userEmail")) as [segment |];
        [| eexists; reflexivity].
      cbv zeta. destruct (u _ (event_request _ _ _ _ _)); eexists; reflexivity.
    + intros granted token bearer Htoken Haccess Hprint Haddr.
      cbn [addressable] in Haddr. rewrite Hbody in Haddr. cbn [negb andb] in Haddr.
      destruct (ToString (field req_body "userEmail")) as [segment |]; [| discriminate].
      settle_credential Htoken Haccess Hprint. cbv zeta.
      eexists (event_request segment _ _ _ bearer).
      destruct (u _ (event_request _ _ _ _ _)); repeat split; reflexivity.
Qed.

Lemma token_request_then_bearer_witness :
  (exists rest,
      calls (invoke (handler_of ListRooms) stub_services []) =
        {| meth := POST;
           url := "https://login.microsoftonline.com/" ++ TENANT_ID ++ "/oauth2/v2.0/token";
           body := Form [ ("client_id", CLIENT_ID);
                          ("client_secret", CLIENT_SECRET);
                          ("scope", "https://graph.microsoft.com/.default");
                          ("grant_type", "client_credentials") ];
           headers := [] |} :: rest)
  /\ (exists next,
         calls (invoke (handler_of ListRooms) stub_services []) = [ token_request; next ]
         /\ is_graph_call next = true
         /\ headers next = [ ("Authorization", "Bearer " ++ "tok123") ]).
Proof.
  destruct (token_request_then_bearer ListRooms stub_services [] eq_refl) as [Hfirst Hnext].
  split; [exact Hfirst |].
  exact (Hnext {| status := 200; data := Obj [ ("access_token", Str "tok123") ] |}
               (Str "tok123") "tok123" eq_refl eq_refl eq_refl eq_refl).
Defined.

(** *** Statelessness *)

Lemma listRooms_deterministic (u1 u2 : upstream) (h1 h2 : list request) :
  same_answers u1 h1 u2 h2 (calls (invoke listRooms u1 h1)) ->
  invoke listRooms u2 h2 = invoke listRooms u1 h1.
Proof.
  rewrite !invoke_listRooms.
  destruct (credential (u1 h1 token_request)) as [bearer | e] eqn:Hcred.
  - cbv zeta.
    destruct (u1 (h1 ++ [token_request])%list (rooms_request bearer)) as [listing | e]
      eqn:Hread;
      [destruct (member (data listing) "value") eqn:Hvalue |];
      cbn [calls same_answers]; intros (Htoken & Hsecond & _);
      rewrite <- Htoken, Hcred; cbv zeta; rewrite <- Hsecond, Hread;
      try rewrite Hvalue; reflexivity.
  - cbn [calls same_answers]. intros (Htoken & _). rewrite <- Htoken, Hcred. reflexivity.
Qed.

Lemma bookRoom_deterministic (req_body : value) (u1 u2 : upstream) (h1 h2 : list request) :
  same_answers u1 h1 u2 h2 (calls (invoke (bookRoom req_body) u1 h1)) ->
  invoke (bookRoom req_body) u2 h2 = invoke (bookRoom req_body) u1 h1.
Proof.
  rewrite !invoke_bookRoom.
  destruct (nullish req_body); [reflexivity |].
  destruct (credential (u1 h1 token_request)) as [bearer | e] eqn:Hcred.
  - destruct (ToString (field req_body "userEmail")) as [segment |].
    + cbv zeta.
      match goal with
      | |- context [u1 (h1 ++ [token_request])%list ?w] =>
          destruct (u1 (h1 ++ [token_request])%list w) eqn:Hwrite
      end;
        cbn [calls same_answers]; intros (Htoken & Hsecond & _);
        rewrite <- Htoken, Hcred; cbv zeta; rewrite <- Hsecond, Hwrite; reflexivity.
    + cbn [calls same_answers]. intros (Htoken & _). rewrite <- Htoken, Hcred. reflexivity.
  - cbn [calls same_answers]. intros (Htoken & _). rewrite <- Htoken, Hcred. reflexivity.
Qed.

(** C8. Both operations are stateless and deterministic relative to
    their environment: take two runs of the same operation with the same
    caller input, started after any two histories of earlier invocations
    and against any two upstreams; if the upstream answers the requests
    of the first run the same way in the second, the second run issues
    the same requests, settles the same way and hands the same response
    to the caller. *)
Theorem runs_depend_on_answers_only :
  forall (o : operation) (u1 u2 : upstream) (h1 h2 : list request),
    same_answers u1 h1 u2 h2 (calls (invoke (handler_of o) u1 h1)) ->
    invoke (handler_of o) u2 h2 = invoke (handler_of o) u1 h1.
Proof.
  intros [| req_body] u1 u2 h1 h2; cbn [handler_of].
  - apply listRooms_deterministic.
  - apply bookRoom_deterministic.
Qed.

Lemma runs_depend_on_answers_only_witness :
  invoke (handler_of (BookRoom alice_books_room1)) stub_services
         (calls (invoke listRooms stub_services []))
  = invoke (handler_of (BookRoom alice_books_room1)) stub_services [].
Proof.
  apply (runs_depend_on_answers_only (BookRoom alice_books_room1) stub_services stub_services
           [] (calls (invoke listRooms stub_services []))).
  simpl. repeat split; reflexivity.
Defined.

(** *** The calendar event *)

(** C9. For every booking input, the body of the calendar write has,
    next to the fields derived from the input, the constants
    [subject = "Room Reservation"], [isOnlineMeeting = true] and
    [onlineMeetingProvider = "teamsForBusiness"], whatever the caller
    sent. *)
Theorem event_constants :
  forall (req_body : value) (u : upstream) (h : list request) (bearer : string),
    addressable (BookRoom req_body) = true ->
    credential (u h token_request) = Fulfilled bearer ->
    exists (write : request) (event : list (string * value)),
      calls (invoke (bookRoom req_body) u h) = [ token_request; write ]
      /\ is_calendar_write write = true
      /\ body write = Json (Obj event)
      /\ lookup "subject" event = Some (Str "Room Reservation")
      /\ lookup "isOnlineMeeting" event = Some (Bool true)
      /\ lookup "onlineMeetingProvider" event = Some (Str "teamsForBusiness")
      /\ map fst event = [ "subject"; "start"; "end"; "attendees";
                           "isOnlineMeeting"; "onlineMeetingProvider" ].
Proof.
  intros req_body u h bearer Haddr Hcred.
  cbn [addressable] in Haddr. apply andb_true_iff in Haddr.
  destruct Haddr as [Hbody Hsegment]. apply negb_true_iff in Hbody.
  rewrite invoke_bookRoom, Hbody, Hcred.
  destruct (ToString (field req_body "userEmail")) as [segment |]; [| discriminate].
  cbv zeta. eexists (event_request segment _ _ _ bearer). eexists.
  split.
  - destruct (u _ (event_request _ _ _ _ _)); reflexivity.
  - repeat split; reflexivity.
Qed.

Lemma event_constants_witness :
  exists (write : request) (event : list (string * value)),
    calls (invoke (bookRoom alice_books_room1) stub_services []) = [ token_request; write ]
    /\ is_calendar_write write = true
    /\ body write = Json (Obj event)
    /\ lookup "subject" event = Some (Str "Room Reservation")
    /\ lookup "isOnlineMeeting" event = Some (Bool true)
    /\ lookup "onlineMeetingProvider" event = Some (Str "teamsForBusiness")
    /\ map fst event = [ "subject"; "start"; "end"; "attendees";
                         "isOnlineMeeting"; "onlineMeetingProvider" ].
Proof.
  exact (event_constants alice_books_room1 stub_services [] "tok123" eq_refl eq_refl).
Defined.

(** C10. [bookRoom] puts the caller's [userEmail] into the URL of the
    calendar write as it is, with no encoding, validation or presence
    check: for every string the URL is exactly
    [https://graph.microsoft.com/v1.0/users/<userEmail>/events], and when
    the body has no [userEmail] the path segment is the text
    [undefined]. *)
Theorem organizer_interpolated_raw :
  forall (fields : list (string * value)) (u : upstream) (h : list request)
         (bearer : string),
    credential (u h token_request) = Fulfilled bearer ->
    (forall userEmail : string,
        lookup "userEmail" fields = Some (Str userEmail) ->
        exists write,
          calls (invoke (bookRoom (Obj fields)) u h) = [ token_request; write ]
          /\ meth write = POST
          /\ url write = "https://graph.microsoft.com/v1.0/users/" ++ userEmail ++ "/events")
    /\ (lookup "userEmail" fields = None ->
        exists write,
          calls (invoke (bookRoom (Obj fields)) u h) = [ token_request; write ]
          /\ meth write = POST
          /\ url write = "https://graph.microsoft.com/v1.0/users/undefined/events").
Proof.
  intros fields u h bearer Hcred. rewrite invoke_bookRoom, Hcred. cbn [nullish].
  split.
  - intros userEmail Hfound.
    assert (Hfield : field (Obj fields) "userEmail" = Str userEmail)
      by (unfold field, member; rewrite Hfound; reflexivity).
    rewrite Hfield. cbn [ToString]. cbv zeta.
    eexists (event_request userEmail _ _ _ bearer).
    destruct (u _ (event_request _ _ _ _ _)); repeat split; reflexivity.
  - intros Habsent.
    assert (Hfield : field (Obj fields) "userEmail" = Undefined)
      by (unfold field, member; rewrite Habsent; reflexivity).
    rewrite Hfield. cbn [ToString]. cbv zeta.
    eexists (event_request "undefined" _ _ _ bearer).
    destruct (u _ (event_request _ _ _ _ _)); repeat split; reflexivity.
Qed.

Lemma organizer_interpolated_raw_witness :
  (exists write,
      calls (invoke (bookRoom (Obj [ ("userEmail", Str "a/../b?c d");
                                     ("roomEmail", Str "room1@x.com") ]))
                    stub_services [])
        = [ token_request; write ]
      /\ meth write = POST
      /\ url write = "https://graph.microsoft.com/v1.0/users/" ++ "a/../b?c d" ++ "/events")
  /\ (exists write,
         calls (invoke (bookRoom (Obj [ ("roomEmail", Str "room1@x.com") ]))
                       stub_services [])
           = [ token_request; write ]
         /\ meth write = POST
         /\ url write = "https://graph.microsoft.com/v1.0/users/undefined/events").
Proof.
  split.
  - exact (proj1 (organizer_interpolated_raw
                    [ ("userEmail", Str "a/../b?c d"); ("roomEmail", Str "room1@x.com") ]
                    stub_services [] "tok123" eq_refl)
                 "a/../b?c d" eq_refl).
  - exact (proj2 (organizer_interpolated_raw
                    [ ("roomEmail", Str "room1@x.com") ]
                    stub_services [] "tok123" eq_refl)
                 eq_refl).
Defined.

(** ** Further properties of the handlers *)

(** Case analysis on everything a run equation branches on. *)
Ltac run_cases :=
  cbv zeta;
  repeat match goal with
         | |- context [match ?x with _ => _ end] => destruct x eqn:?
         end.

(** X1. An invocation of either handler hands the caller exactly one body
    when its promise fulfils and none when it rejects: [res.json] is the
    last step of both handlers and is never reached after a failure. *)
Theorem one_reply_iff_fulfilled :
  forall (o : operation) (u : upstream) (h : list request),
    (result (invoke (handler_of o) u h) = Fulfilled tt
     /\ exists v, replies (invoke (handler_of o) u h) = [ v ])
    \/ (exists e, result (invoke (handler_of o) u h) = Rejected e
                  /\ replies (invoke (handler_of o) u h) = []).
Proof.
  intros [| req_body] u h; cbn [handler_of];
    [rewrite invoke_listRooms | rewrite invoke_bookRoom];
    run_cases; cbn [result replies];
    solve [ left; split; [reflexivity | eexists; reflexivity]
          | right; eexists; split; reflexivity ].
Qed.

(** X2. The calls of an invocation are counted by its input and by the
    identity answer alone: one token call when there is a body to work
    on, then one call to the graph host exactly when the identity answer
    yields a credential and the organizer prints, and nothing else. *)
Theorem call_count :
  forall (o : operation) (u : upstream) (h : list request),
    token_calls (calls (invoke (handler_of o) u h)) = (if has_body o then 1 else 0)
    /\ graph_calls (calls (invoke (handler_of o) u h))
       = (if addressable o && has_credential (u h token_request) then 1 else 0)
    /\ length (calls (invoke (handler_of o) u h))
       = token_calls (calls (invoke (handler_of o) u h))
         + graph_calls (calls (invoke (handler_of o) u h)).
Proof.
  intros [| req_body] u h; cbn [handler_of]; unfold has_credential, addressable, has_body;
    [rewrite invoke_listRooms | rewrite invoke_bookRoom].
  - destruct (credential (u h token_request)) as [bearer | e]; cbn [andb];
      run_cases; repeat split; reflexivity.
  - destruct (nullish req_body); cbn [negb andb]; [repeat split; reflexivity |].
    destruct (credential (u h token_request)) as [bearer | e];
      destruct (ToString (field req_body "userEmail")) as [segment |];
      cbn [andb]; run_cases; repeat split; reflexivity.
Qed.

(** X3. [listRooms] never writes: whatever the upstream answers, it
    issues no calendar write, and every call it makes to the graph host
    is a [GET] without a body. *)
Theorem listRooms_never_writes :
  forall (u : upstream) (h : list request),
    calendar_writes (calls (invoke listRooms u h)) = 0
    /\ Forall (fun r => is_graph_call r = true -> meth r = GET /\ body r = NoBody)
              (calls (invoke listRooms u h)).
Proof.
  intros u h. rewrite invoke_listRooms. run_cases; cbn [calls];
    (split; [reflexivity |]);
    repeat (constructor; [solve [intros; split; reflexivity | discriminate] |]);
    constructor.
Qed.

(** X4. With no request body ([req.body] is [undefined] or [null]) the
    handler of [POST /book] throws while destructuring, before anything
    else: no token is requested, nothing is written to the calendar and
    nothing is handed to the caller. *)
Theorem bookRoom_without_body_makes_no_call :
  forall (req_body : value) (u : upstream) (h : list request),
    nullish req_body = true ->
    invoke (bookRoom req_body) u h =
      {| result := Rejected TypeError; calls := []; replies := [] |}.
Proof.
  intros req_body u h Hbody. rewrite invoke_bookRoom, Hbody. reflexivity.
Qed.

Lemma bookRoom_without_body_makes_no_call_witness :
  invoke (bookRoom Undefined) stub_services [ token_request ] =
    {| result := Rejected TypeError; calls := []; replies := [] |}.
Proof.
  exact (bookRoom_without_body_makes_no_call Undefined stub_services [ token_request ]
           eq_refl).
Defined.

(** X5. A token answer without an [access_token] does not stop the
    operation: [getToken] returns [undefined], and the call to the graph
    host goes out with the header [Authorization: Bearer undefined]. *)
Theorem missing_access_token_sends_undefined :
  forall (o : operation) (u : upstream) (h : list request) (granted : http_response),
    addressable o = true ->
    u h token_request = Fulfilled granted ->
    member (data granted) "access_token" = Fulfilled Undefined ->
    exists next,
      calls (invoke (handler_of o) u h) = [ token_request; next ]
      /\ is_graph_call next = true
      /\ headers next = [ ("Authorization", "Bearer undefined") ].
Proof.
  intros [| req_body] u h granted Haddr Htoken Haccess; cbn [handler_of].
  - rewrite invoke_listRooms. unfold credential. rewrite Htoken, Haccess.
    cbn [ToString]. exists (rooms_request "undefined").
    run_cases; repeat split; reflexivity.
  - cbn [addressable] in Haddr. apply andb_true_iff in Haddr.
    destruct Haddr as [Hbody Hsegment]. apply negb_true_iff in Hbody.
    rewrite invoke_bookRoom, Hbody. unfold credential. rewrite Htoken, Haccess.
    cbn [ToString].
    destruct (ToString (field req_body "userEmail")) as [segment |]; [| discriminate].
    eexists (event_request segment _ _ _ "undefined").
    run_cases; repeat split; reflexivity.
Qed.

Lemma missing_access_token_sends_undefined_witness :
  exists next,
    calls (invoke (handler_of (BookRoom alice_books_room1))
                  (stub_answers (Fulfilled {| status := 200; data := Obj [] |})
                                (Rejected (AxiosError None)))
                  [])
      = [ token_request; next ]
    /\ is_graph_call next = true
    /\ headers next = [ ("Authorization", "Bearer undefined") ].
Proof.
  exact (missing_access_token_sends_undefined (BookRoom alice_books_room1)
           (stub_answers (Fulfilled {| status := 200; data := Obj [] |})
                         (Rejected (AxiosError None)))
           [] {| status := 200; data := Obj [] |} eq_refl eq_refl eq_refl).
Defined.

(** X6. A token answer whose body is [null] (or absent) makes
    [res.data.access_token] throw: the operation rejects with a
    [TypeError] right after the token call, calls the graph host not at
    all and hands nothing to the caller. *)
Theorem null_token_answer_rejects :
  forall (o : operation) (u : upstream) (h : list request) (granted : http_response),
    has_body o = true ->
    u h token_request = Fulfilled granted ->
    nullish (data granted) = true ->
    invoke (handler_of o) u h =
      {| result := Rejected TypeError; calls := [ token_request ]; replies := [] |}.
Proof.
  intros [| req_body] u h granted Hbody Htoken Hnull; cbn [handler_of].
  - rewrite invoke_listRooms. unfold credential.
    rewrite Htoken, (member_nullish _ _ Hnull). reflexivity.
  - cbn [has_body] in Hbody. apply negb_true_iff in Hbody.
    rewrite invoke_bookRoom, Hbody. unfold credential.
    rewrite Htoken, (member_nullish _ _ Hnull). reflexivity.
Qed.

Lemma null_token_answer_rejects_witness :
  invoke (handler_of ListRooms)
         (stub_answers (Fulfilled {| status := 200; data := Null |})
                       (Fulfilled {| status := 200; data := Obj [ ("value", Arr []) ] |}))
         [] =
    {| result := Rejected TypeError; calls := [ token_request ]; replies := [] |}.
Proof.
  exact (null_token_answer_rejects ListRooms
           (stub_answers (Fulfilled {| status := 200; data := Null |})
                         (Fulfilled {| status := 200; data := Obj [ ("value", Arr []) ] |}))
           [] {| status := 200; data := Null |} eq_refl eq_refl eq_refl).
Defined.

(** X7. A directory answer whose body is [null] makes [rooms.data.value]
    throw after the read was made: [listRooms] rejects with a [TypeError]
    and hands nothing to the caller, although the directory call
    succeeded. *)
Theorem null_directory_answer_rejects :
  forall (u : upstream) (h : list request) (bearer : string) (listing : http_response),
    credential (u h token_request) = Fulfilled bearer ->
    u (h ++ [ token_request ])%list (rooms_request bearer) = Fulfilled listing ->
    nullish (data listing) = true ->
    invoke listRooms u h =
      {| result := Rejected TypeError;
         calls := [ token_request; rooms_request bearer ];
         replies := [] |}.
Proof.
  intros u h bearer listing Hcred Hread Hnull.
  rewrite invoke_listRooms, Hcred. cbv zeta.
  rewrite Hread, (member_nullish _ _ Hnull). reflexivity.
Qed.

Lemma null_directory_answer_rejects_witness :
  invoke listRooms
         (stub_answers (Fulfilled {| status := 200;
                                     data := Obj [ ("access_token", Str "tok123") ] |})
                       (Fulfilled {| status := 200; data := Null |}))
         [] =
    {| result := Rejected TypeError;
       calls := [ token_request; rooms_request "tok123" ];
       replies := [] |}.
Proof.
  exact (null_directory_answer_rejects
           (stub_answers (Fulfilled {| status := 200;
                                       data := Obj [ ("access_token", Str "tok123") ] |})
                         (Fulfilled {| status := 200; data := Null |}))
           [] "tok123" {| status := 200; data := Null |} eq_refl eq_refl eq_refl).
Defined.

Lemma restatus_success (code : nat) (u : upstream) (h : list request) (r : request) :
  200 <= code < 300 ->
  restatus code u h r =
    match u h r with
    | Fulfilled res => Fulfilled {| status := code; data := data res |}
    | Rejected err => Rejected err
    end.
Proof.
  intros [Hlow Hhigh]. unfold restatus.
  apply Nat.leb_le in Hlow. apply Nat.ltb_lt in Hhigh.
  destruct (u h r); [rewrite Hlow, Hhigh |]; reflexivity.
Qed.

Lemma credential_restatus (code : nat) (u : upstream) (h : list request) (r : request) :
  200 <= code < 300 ->
  credential (restatus code u h r) = credential (u h r).
Proof.
  intros Hcode. rewrite (restatus_success _ _ _ _ Hcode).
  destruct (u h r); reflexivity.
Qed.

(** X8. Which 2xx status a successful upstream answer has is never looked
    at and never relayed: giving every fulfilled answer any other 2xx
    status leaves the whole outcome of either operation, and the response
    of the route, unchanged.  (A status outside 2xx is another matter:
    the call rejects.) *)
Theorem success_status_not_relayed :
  forall (code : nat) (o : operation) (u : upstream) (h : list request),
    200 <= code < 300 ->
    invoke (handler_of o) (restatus code u) h = invoke (handler_of o) u h
    /\ answer (invoke (handler_of o) (restatus code u) h)
       = answer (invoke (handler_of o) u h).
Proof.
  intros code o u h Hcode.
  assert (Hsame : invoke (handler_of o) (restatus code u) h = invoke (handler_of o) u h).
  { destruct o as [| req_body]; cbn [handler_of].
    - rewrite !invoke_listRooms, (credential_restatus _ _ _ _ Hcode).
      destruct (credential (u h token_request)) as [bearer | e]; [| reflexivity].
      cbv zeta. rewrite (restatus_success _ _ _ _ Hcode).
      destruct (u (h ++ [token_request])%list (rooms_request bearer)); reflexivity.
    - rewrite !invoke_bookRoom, (credential_restatus _ _ _ _ Hcode).
      destruct (nullish req_body); [reflexivity |].
      destruct (credential (u h token_request)) as [bearer | e]; [| reflexivity].
      destruct (ToString (field req_body "userEmail")) as [segment |]; [| reflexivity].
      cbv zeta. rewrite (restatus_success _ _ _ _ Hcode).
      destruct (u (h ++ [token_request])%list (event_request _ _ _ _ _)); reflexivity. }
  split; [exact Hsame | rewrite Hsame; reflexivity].
Qed.

Lemma success_status_not_relayed_witness :
  invoke (handler_of (BookRoom alice_books_room1)) (restatus 204 stub_services) []
    = invoke (handler_of (BookRoom alice_books_room1)) stub_services []
  /\ answer (invoke (handler_of (BookRoom alice_books_room1)) (restatus 204 stub_services) [])
     = answer (invoke (handler_of (BookRoom alice_books_room1)) stub_services []).
Proof.
  apply (success_status_not_relayed 204 (BookRoom alice_books_room1) stub_services []).
  lia.
Defined.

(** A status outside 2xx is not ignored: the same services answering 404
    make the token call reject, and the operation ends there. *)
Example restatus_outside_2xx :
  invoke listRooms (restatus 404 stub_services) [] =
    {| result := Rejected (AxiosError
                             (Some {| status := 404;
                                      data := Obj [ ("access_token", Str "tok123") ] |}));
       calls := [ token_request ];
       replies := [] |}.
Proof. reflexivity. Qed.

(** X9. [POST /book] reads four properties of the request body and
    nothing else: two bodies that agree on [userEmail], [roomEmail],
    [start] and [end] (and on being present at all) give the same
    outcome, so no other property of the caller's body reaches the
    calendar. *)
Theorem other_body_fields_ignored :
  forall (body1 body2 : value) (u : upstream) (h : list request),
    nullish body1 = nullish body2 ->
    field body1 "userEmail" = field body2 "userEmail" ->
    field body1 "roomEmail" = field body2 "roomEmail" ->
    field body1 "start" = field body2 "start" ->
    field body1 "end" = field body2 "end" ->
    invoke (bookRoom body1) u h = invoke (bookRoom body2) u h.
Proof.
  intros body1 body2 u h Hnull Huser Hroom Hstart Hend.
  rewrite !invoke_bookRoom, Hnull, Huser, Hroom, Hstart, Hend. reflexivity.
Qed.

Lemma other_body_fields_ignored_witness :
  invoke (bookRoom (Obj [ ("subject", Str "Board meeting");
                          ("end", Str "2024-01-01T11:00:00Z");
                          ("isOnlineMeeting", Bool false);
                          ("roomEmail", Str "room1@x.com");
                          ("userEmail", Str "alice@x.com");
                          ("start", Str "2024-01-01T10:00:00Z") ]))
         stub_services []
  = invoke (bookRoom alice_books_room1) stub_services [].
Proof.
  exact (other_body_fields_ignored _ alice_books_room1 stub_services []
           eq_refl eq_refl eq_refl eq_refl eq_refl).
Defined.



(** X11. A request body that is a JSON array is not refused: every
    destructured name is [undefined], a token is fetched, and the
    calendar write goes to [/v1.0/users/undefined/events] with
    [undefined] for the room and for both times. *)
Theorem array_body_books_undefined :
  forall (items : list value) (u : upstream) (h : list request) (bearer : string),
    credential (u h token_request) = Fulfilled bearer ->
    calls (invoke (bookRoom (Arr items)) u h) =
      [ token_request; event_request "undefined" Undefined Undefined Undefined bearer ]
    /\ replies (invoke (bookRoom (Arr items)) u h) =
         match u (h ++ [ token_request ])%list
                 (event_request "undefined" Undefined Undefined Undefined bearer) with
         | Fulfilled meeting => [ data meeting ]
         | Rejected _ => []
         end.
Proof.
  intros items u h bearer Hcred.
  rewrite invoke_bookRoom, Hcred. cbn [nullish field member ToString]. cbv zeta.
  destruct (u _ (event_request _ _ _ _ _)); split; reflexivity.
Qed.

Lemma array_body_books_undefined_witness :
  calls (invoke (bookRoom (Arr [ Str "alice@x.com"; Str "room1@x.com" ])) stub_services []) =
    [ token_request; event_request "undefined" Undefined Undefined Undefined "tok123" ]
  /\ replies (invoke (bookRoom (Arr [ Str "alice@x.com"; Str "room1@x.com" ]))
                     stub_services []) =
       match stub_services ([] ++ [ token_request ])%list
               (event_request "undefined" Undefined Undefined Undefined "tok123") with
       | Fulfilled meeting => [ data meeting ]
       | Rejected _ => []
       end.
Proof.
  exact (array_body_books_undefined [ Str "alice@x.com"; Str "room1@x.com" ]
           stub_services [] "tok123" eq_refl).
Defined.

(** X12. An organizer that cannot be turned into a string (an object with
    its own [toString] property, or an array holding one) is found out
    only after the token was fetched: the token call is made, the URL
    template then throws, and no calendar write is issued. *)
Theorem unprintable_organizer_wastes_token :
  forall (req_body : value) (u : upstream) (h : list request),
    nullish req_body = false ->
    ToString (field req_body "userEmail") = None ->
    calls (invoke (bookRoom req_body) u h) = [ token_request ]
    /\ replies (invoke (bookRoom req_body) u h) = []
    /\ result (invoke (bookRoom req_body) u h) =
         match credential (u h token_request) with
         | Fulfilled _ => Rejected TypeError
         | Rejected e => Rejected e
         end.
Proof.
  intros req_body u h Hbody Hprint.
  rewrite invoke_bookRoom, Hbody, Hprint.
  destruct (credential (u h token_request)); repeat split; reflexivity.
Qed.

Lemma unprintable_organizer_wastes_token_witness :
  let req_body := Obj [ ("userEmail", Arr [ Str "alice@x.com";
                                            Obj [ ("toString", Null) ] ]);
                        ("roomEmail", Str "room1@x.com") ] in
  calls (invoke (bookRoom req_body) stub_services []) = [ token_request ]
  /\ replies (invoke (bookRoom req_body) stub_services []) = []
  /\ result (invoke (bookRoom req_body) stub_services []) =
       match credential (stub_services [] token_request) with
       | Fulfilled _ => Rejected TypeError
       | Rejected e => Rejected e
       end.
Proof.
  exact (unprintable_organizer_wastes_token
           (Obj [ ("userEmail", Arr [ Str "alice@x.com"; Obj [ ("toString", Null) ] ]);
                  ("roomEmail", Str "room1@x.com") ])
           stub_services [] eq_refl eq_refl).
Defined.

(** X13. What an invocation sends is fixed by its input and by the token
    answer: the answer of the directory or of the calendar never causes
    another call, be it a retry after a failure or a follow-up read of a
    further page. *)
Theorem calls_fixed_by_token_answer :
  forall (o : operation) (u1 u2 : upstream) (h : list request),
    u1 h token_request = u2 h token_request ->
    calls (invoke (handler_of o) u1 h) = calls (invoke (handler_of o) u2 h).
Proof.
  intros [| req_body] u1 u2 h Htoken; cbn [handler_of];
    [rewrite !invoke_listRooms | rewrite !invoke_bookRoom];
    rewrite Htoken; run_cases; reflexivity.
Qed.

Lemma calls_fixed_by_token_answer_witness :
  calls (invoke (handler_of ListRooms) stub_services [])
  = calls (invoke (handler_of ListRooms) stub_forbidden []).
Proof.
  exact (calls_fixed_by_token_answer ListRooms stub_services stub_forbidden [] eq_refl).
Defined.

(** X14. Of a directory answer only the [value] property reaches the
    caller: two answers with the same [value] give the same outcome,
    whatever else they hold (a link to a next page, for one). *)
Theorem listRooms_relays_value_only :
  forall (u1 u2 : upstream) (h : list request) (bearer : string)
         (listing1 listing2 : http_response),
    u1 h token_request = u2 h token_request ->
    credential (u1 h token_request) = Fulfilled bearer ->
    u1 (h ++ [ token_request ])%list (rooms_request bearer) = Fulfilled listing1 ->
    u2 (h ++ [ token_request ])%list (rooms_request bearer) = Fulfilled listing2 ->
    member (data listing1) "value" = member (data listing2) "value" ->
    invoke listRooms u1 h = invoke listRooms u2 h.
Proof.
  intros u1 u2 h bearer listing1 listing2 Htoken Hcred Hread1 Hread2 Hvalue.
  rewrite !invoke_listRooms, <- Htoken, Hcred. cbv zeta.
  rewrite Hread1, Hread2, Hvalue. reflexivity.
Qed.

Lemma listRooms_relays_value_only_witness :
  invoke listRooms
         (stub_answers
            (Fulfilled {| status := 200; data := Obj [ ("access_token", Str "tok123") ] |})
            (Fulfilled {| status := 200;
                          data := Obj [ ("@odata.nextLink", Str "https://graph.microsoft.com/v1.0/places/microsoft.graph.room?$skiptoken=x");
                                        ("value", Arr [ Obj [ ("id", Str "r1") ] ]) ] |}))
         []
  = invoke listRooms
           (stub_answers
              (Fulfilled {| status := 200; data := Obj [ ("access_token", Str "tok123") ] |})
              (Fulfilled {| status := 200;
                            data := Obj [ ("value", Arr [ Obj [ ("id", Str "r1") ] ]) ] |}))
           [].
Proof.
  exact (listRooms_relays_value_only
           (stub_answers
              (Fulfilled {| status := 200; data := Obj [ ("access_token", Str "tok123") ] |})
              (Fulfilled {| status := 200;
                            data := Obj [ ("@odata.nextLink", Str "https://graph.microsoft.com/v1.0/places/microsoft.graph.room?$skiptoken=x");
                                          ("value", Arr [ Obj [ ("id", Str "r1") ] ]) ] |}))
           (stub_answers
              (Fulfilled {| status := 200; data := Obj [ ("access_token", Str "tok123") ] |})
              (Fulfilled {| status := 200;
                            data := Obj [ ("value", Arr [ Obj [ ("id", Str "r1") ] ]) ] |}))
           [] "tok123"
           {| status := 200;
              data := Obj [ ("@odata.nextLink", Str "https://graph.microsoft.com/v1.0/places/microsoft.graph.room?$skiptoken=x");
                            ("value", Arr [ Obj [ ("id", Str "r1") ] ]) ] |}
           {| status := 200; data := Obj [ ("value", Arr [ Obj [ ("id", Str "r1") ] ]) ] |}
           eq_refl eq_refl eq_refl eq_refl eq_refl).
Defined.
